(** * tasks/libs/issue/model/constants.py

    The module is a table of constants: two model-reference strings and a
    tuple of team labels.  The development embeds the three literals as they
    are written in the source, the module body as the three assignment
    statements it consists of, and the module namespace those statements
    build when the module is imported. *)

From Stdlib Require Import Ascii.
From stdpp Require Import gmap strings list fin_maps.

(** ** The literals of the source *)

Definition MODEL : string := "/issue_auto_assign_model".

Definition BASE_MODEL : string :=
  "distilbert-base-uncased-finetuned-sst-2-english".

Definition TEAMS : list string :=
  [ "container-ecosystems";
    "windows-agent";
    "remote-config";
    "container-platform";
    "documentation";
    "agent-security";
    "container-app";
    "agent-all";
    "processes";
    "agent-platform";
    "agent-release-management";
    "networks";
    "ebpf-platform";
    "agent-apm";
    "single-machine-performance";
    "agent-e2e-testing";
    "agent-developer-tools";
    "triage";
    "windows-kernel-integrations";
    "container-integrations";
    "sdlc-security";
    "opentelemetry";
    "universal-service-monitoring";
    "agent-build-and-releases";
    "agent-configuration";
    "agent-runtimes";
    "agent-integrations";
    "agent-metric-pipelines";
    "agent-log-pipelines";
    "platform-integrations";
    "agent-ci-experience";
    "asm-go";
    "agent-cspm";
    "debugger";
    "database-monitoring";
    "network-device-monitoring";
    "serverless";
    "apm-onboarding";
    "fleet";
    "agent-processing-and-routing";
    "agent-discovery" ].

(** ** Python values and the module body *)

(** The two kinds of object the module creates: a [str] and a [tuple] of
    [str].  Neither kind has a mutating method, so a value is its content.
    [VBuiltins] is the builtins mapping the interpreter binds to
    [__builtins__]; the module never looks into it and its content is not
    modelled. *)
Inductive value : Type :=
  | VStr (s : string)
  | VTuple (items : list string)
  | VBuiltins.

Global Instance value_eq_dec : EqDecision value.
Proof. solve_decision. Defined.

(** A module-level statement.  The source has assignments of literals only. *)
Inductive stmt : Type :=
  | Assign (target : string) (rhs : value).

(** The statements of constants.py, in source order (lines 1, 2 and 3-45). *)
Definition module_body : list stmt :=
  [ Assign "MODEL" (VStr MODEL);
    Assign "BASE_MODEL" (VStr BASE_MODEL);
    Assign "TEAMS" (VTuple TEAMS) ].

(** A module namespace maps global names to objects. *)
Abbreviation namespace := (gmap string value).

Definition exec_stmt (ns : namespace) (s : stmt) : namespace :=
  match s with
  | Assign x v => <[x := v]> ns
  end.

Definition exec (ns : namespace) (body : list stmt) : namespace :=
  foldl exec_stmt ns body.

(** Importing the module runs its body in the namespace [init] prepared by
    the import machinery (which holds names such as [__name__]).  [init] is
    the namespace in which the first statement starts; what the interpreter
    does to a namespace before that is [setup_builtins] below. *)
Definition import_module (init : namespace) : namespace :=
  exec init module_body.

(** The namespace when nothing was there before the body ran. *)
Definition constants : namespace := import_module ∅.

Definition target_of (s : stmt) : string :=
  match s with Assign x _ => x end.

(** Number of statements of [body] that bind [name]. *)
Definition assignments_to (name : string) (body : list stmt) : nat :=
  length (filter (λ s, target_of s = name) body).

(** Before it runs code in a namespace the interpreter binds [__builtins__]
    there, unless the namespace has a binding for it already. *)
Definition setup_builtins (ns : namespace) : namespace :=
  match ns !! "__builtins__" with
  | Some _ => ns
  | None => <["__builtins__" := VBuiltins]> ns
  end.

(** Executing the module as a whole in the namespace [init]: the set-up of
    the interpreter, then the statements of the body. *)
Definition exec_module (init : namespace) : namespace :=
  import_module (setup_builtins init).

(** ** Reading a constant *)

(** Attribute access on the module: the object bound to [name], or [None]
    where Python raises AttributeError; the namespace is handed back as it
    was. *)
Definition read (name : string) (ns : namespace) : option value * namespace :=
  (ns !! name, ns).

(** A sequence of reads, threading the namespace and collecting results. *)
Fixpoint run_reads (names : list string) (ns : namespace)
  : list (option value) * namespace :=
  match names with
  | [] => ([], ns)
  | n :: rest =>
      let '(v, ns1) := read n ns in
      let '(vs, ns2) := run_reads rest ns1 in
      (v :: vs, ns2)
  end.

(** ** Operations on the module while and after it is loaded *)

Inductive outcome : Type :=
  | Done
  | AttributeError
  | TypeError.

(** An item assignment [module.name[i] = x] attempted from outside.  A [str]
    and a [tuple] do not support item assignment, so the attempt raises
    TypeError; the builtins mapping takes the item, and the name stays bound
    to the same mapping. *)
Definition store_item (name : string) (i : Z) (x : string) (ns : namespace)
  : outcome * namespace :=
  match ns !! name with
  | None => (AttributeError, ns)
  | Some (VStr _) => (TypeError, ns)
  | Some (VTuple _) => (TypeError, ns)
  | Some VBuiltins => (Done, ns)
  end.



(** A name is public when it does not start with an underscore. *)
Definition is_public (name : string) : bool :=
  match name with
  | String c _ => negb (Ascii.eqb c "_")
  | EmptyString => true
  end.

Definition public_names (ns : namespace) : gset string :=
  filter (λ n, is_public n = true) (dom ns).

(** ** Tuple indexing *)

(** [t[i]] on a tuple: a negative index counts from the end, and [None]
    stands for IndexError. *)
Definition tuple_getitem (t : list string) (i : Z) : option string :=
  let n := Z.of_nat (length t) in
  let k := if (i <? 0)%Z then (i + n)%Z else i in
  if ((k <? 0) || (n <=? k))%Z then None else t !! Z.to_nat k.

(** ** Character classes and str.strip *)

(** Whitespace in the sense of [str.isspace], on the ASCII range in which the
    literals of the source are written: TAB, LF, VT, FF, CR, the separators
    FS, GS, RS, US, and the space. *)
Definition is_py_space (c : ascii) : bool :=
  let n := nat_of_ascii c in
  ((9 <=? n) && (n <=? 13)) || ((28 <=? n) && (n <=? 32)).

Fixpoint lstrip (s : string) : string :=
  match s with
  | String c rest => if is_py_space c then lstrip rest else s
  | EmptyString => EmptyString
  end.

Definition rstrip (s : string) : string :=
  String.rev (lstrip (String.rev s)).

Definition strip (s : string) : string := rstrip (lstrip s).

Definition first_char (s : string) : option ascii :=
  match s with
  | String c _ => Some c
  | EmptyString => None
  end.

Definition last_char (s : string) : option ascii :=
  first_char (String.rev s).

Definition char_is (p : ascii → bool) (oc : option ascii) : bool :=
  match oc with
  | Some c => p c
  | None => false
  end.

Fixpoint string_forallb (p : ascii → bool) (s : string) : bool :=
  match s with
  | String c rest => p c && string_forallb p rest
  | EmptyString => true
  end.

Definition is_lower (c : ascii) : bool :=
  let n := nat_of_ascii c in (97 <=? n) && (n <=? 122).

Definition is_digit (c : ascii) : bool :=
  let n := nat_of_ascii c in (48 <=? n) && (n <=? 57).

Definition is_hyphen (c : ascii) : bool := Ascii.eqb c "-".

Definition is_label_char (c : ascii) : bool :=
  is_lower c || is_digit c || is_hyphen c.

(** ** Sanity checks of the definitions on concrete inputs *)

Example strip_spaces : strip (String "009" "  fleet  ") = "fleet".
Proof. reflexivity. Qed.

Example strip_inner_kept : strip " agent all " = "agent all".
Proof. reflexivity. Qed.

Example strip_only_spaces : strip "   " = "".
Proof. reflexivity. Qed.

Example last_char_fleet : last_char "fleet" = Some "t"%char.
Proof. reflexivity. Qed.

Example label_char_upper : is_label_char "A" = false.
Proof. reflexivity. Qed.

Example label_char_underscore : is_label_char "_" = false.
Proof. reflexivity. Qed.

Example private_name : is_public "__name__" = false.
Proof. reflexivity. Qed.

Example getitem_out_of_range : tuple_getitem TEAMS 41 = None.
Proof. reflexivity. Qed.

Example getitem_below_range : tuple_getitem TEAMS (-42) = None.
Proof. reflexivity. Qed.

Example getitem_second : tuple_getitem TEAMS 1 = Some "windows-agent".
Proof. reflexivity. Qed.

Example store_item_tuple :
  store_item "TEAMS" 0 "x" constants = (TypeError, constants).
Proof. vm_compute. reflexivity. Qed.

Example store_item_unbound :
  fst (store_item "TEAM" 0 "x" constants) = AttributeError.
Proof. vm_compute. reflexivity. Qed.

Example setup_builtins_fresh :
  setup_builtins ∅ !! "__builtins__" = Some VBuiltins.
Proof. vm_compute. reflexivity. Qed.

Example setup_builtins_kept :
  setup_builtins {[ "__builtins__" := VStr "mine" ]} !! "__builtins__"
  = Some (VStr "mine").
Proof. vm_compute. reflexivity. Qed.

Example read_missing : fst (read "TEAM" constants) = None.
Proof. vm_compute. reflexivity. Qed.

(** ** Helper lemmas *)

Lemma TEAMS_NoDup : NoDup TEAMS.
Proof. apply (bool_decide_unpack _). vm_compute. reflexivity. Qed.

Lemma read_namespace name ns : snd (read name ns) = ns.
Proof. reflexivity. Qed.

Lemma run_reads_namespace names ns : snd (run_reads names ns) = ns.
Proof.
  induction names as [|n rest IH]; simpl; [done|].
  destruct (run_reads rest ns) as [vs ns2]. simpl in *. done.
Qed.

(** ** The team-label tuple *)

(** C1: the TEAMS tuple has length 41. *)
Theorem TEAMS_length : length TEAMS = 41.
Proof. reflexivity. Qed.

(** C2: no two entries of TEAMS are equal: at distinct indices i and j the
    entries TEAMS[i] and TEAMS[j] differ. *)
Theorem TEAMS_distinct (i j : nat) (x y : string) :
  i ≠ j → TEAMS !! i = Some x → TEAMS !! j = Some y → x ≠ y.
Proof.
  intros Hij Hi Hj ->.
  apply Hij. exact (NoDup_lookup TEAMS i j y TEAMS_NoDup Hi Hj).
Qed.

Lemma TEAMS_distinct_witness :
  0 ≠ 1 ∧ TEAMS !! 0 = Some "container-ecosystems"
  ∧ TEAMS !! 1 = Some "windows-agent"
  ∧ "container-ecosystems" ≠ "windows-agent".
Proof.
  split; [lia|]. split; [reflexivity|]. split; [reflexivity|].
  apply (TEAMS_distinct 0 1); [lia | reflexivity | reflexivity].
Defined.

(** C3: every entry of TEAMS is a non-empty string, stripping it leaves it
    unchanged, and neither its first nor its last character is whitespace. *)
Theorem TEAMS_entries_stripped :
  Forall (λ s, 0 < String.length s
               ∧ strip s = s
               ∧ char_is is_py_space (first_char s) = false
               ∧ char_is is_py_space (last_char s) = false) TEAMS.
Proof. apply (bool_decide_unpack _). vm_compute. reflexivity. Qed.

(** C9: every entry of TEAMS consists of lowercase ASCII letters, decimal
    digits and hyphens only, and neither begins nor ends with a hyphen. *)
Theorem TEAMS_entries_charset :
  Forall (λ s, string_forallb is_label_char s = true
               ∧ char_is is_hyphen (first_char s) = false
               ∧ char_is is_hyphen (last_char s) = false) TEAMS.
Proof. apply (bool_decide_unpack _). vm_compute. reflexivity. Qed.

(** C10: TEAMS is bound to a tuple, a fixed ordered sequence, whose first
    entry is 'container-ecosystems' and whose last, 41st, entry is
    'agent-discovery'. *)
Theorem TEAMS_first_last :
  constants !! "TEAMS" = Some (VTuple TEAMS)
  ∧ tuple_getitem TEAMS 0 = Some "container-ecosystems"
  ∧ tuple_getitem TEAMS (-1) = Some "agent-discovery"
  ∧ tuple_getitem TEAMS 40 = Some "agent-discovery"
  ∧ head TEAMS = Some "container-ecosystems"
  ∧ last TEAMS = Some "agent-discovery".
Proof. repeat split; vm_compute; reflexivity. Qed.

(** ** The model-reference strings *)

(** C4: MODEL and BASE_MODEL are non-empty: each has length greater than
    zero. *)
Theorem model_strings_nonempty :
  0 < String.length MODEL ∧ 0 < String.length BASE_MODEL.
Proof. split; vm_compute; lia. Qed.

(** C5: MODEL is exactly "/issue_auto_assign_model" and BASE_MODEL is exactly
    "distilbert-base-uncased-finetuned-sst-2-english", as literals and as the
    objects the imported module binds to these names. *)
Theorem model_strings_exact :
  MODEL = "/issue_auto_assign_model"
  ∧ BASE_MODEL = "distilbert-base-uncased-finetuned-sst-2-english"
  ∧ constants !! "MODEL" = Some (VStr "/issue_auto_assign_model")
  ∧ constants !! "BASE_MODEL"
    = Some (VStr "distilbert-base-uncased-finetuned-sst-2-english").
Proof. repeat split; vm_compute; reflexivity. Qed.

(** ** The module namespace *)

Lemma import_module_unfold (init : namespace) :
  import_module init
  = <["TEAMS" := VTuple TEAMS]>
      (<["BASE_MODEL" := VStr BASE_MODEL]> (<["MODEL" := VStr MODEL]> init)).
Proof. reflexivity. Qed.

Lemma import_module_TEAMS (init : namespace) :
  import_module init !! "TEAMS" = Some (VTuple TEAMS).
Proof. rewrite import_module_unfold. apply lookup_insert_eq. Qed.

Lemma import_module_BASE_MODEL (init : namespace) :
  import_module init !! "BASE_MODEL" = Some (VStr BASE_MODEL).
Proof.
  rewrite import_module_unfold.
  rewrite lookup_insert_ne by discriminate. apply lookup_insert_eq.
Qed.

Lemma import_module_MODEL (init : namespace) :
  import_module init !! "MODEL" = Some (VStr MODEL).
Proof.
  rewrite import_module_unfold.
  rewrite !lookup_insert_ne by discriminate. apply lookup_insert_eq.
Qed.

Lemma run_reads_results names ns :
  fst (run_reads names ns) = (λ n, ns !! n) <$> names.
Proof.
  induction names as [|n rest IH]; simpl; [done|].
  destruct (run_reads rest ns) as [vs ns2]. simpl in *. by rewrite IH.
Qed.






(** C7: constant access is stable across reads.  A read of a name returns
    the same result when it is repeated, whatever reads happen in between,
    and in the imported module the reads of MODEL, BASE_MODEL and TEAMS return
    the objects of the source. *)
Theorem constant_reads_stable
    (init : namespace) (name : string) (between : list string) :
  let ns := import_module init in
  fst (read name (snd (run_reads between (snd (read name ns)))))
  = fst (read name ns)
  ∧ fst (read "MODEL" ns) = Some (VStr MODEL)
  ∧ fst (read "BASE_MODEL" ns) = Some (VStr BASE_MODEL)
  ∧ fst (read "TEAMS" ns) = Some (VTuple TEAMS).
Proof.
  intros ns. split.
  - by rewrite read_namespace, run_reads_namespace.
  - unfold ns. simpl.
    auto using import_module_MODEL, import_module_BASE_MODEL,
      import_module_TEAMS.
Qed.

(** C8: the module exposes exactly three public values.  Whatever private
    names the import machinery has put in the namespace, the public names
    after the import are MODEL, BASE_MODEL and TEAMS, bound to a string, a
    string and a tuple of strings. *)
Theorem public_interface (init : namespace) :
  public_names init = ∅ →
  public_names (import_module init) = {[ "MODEL"; "BASE_MODEL"; "TEAMS" ]}
  ∧ import_module init !! "MODEL" = Some (VStr MODEL)
  ∧ import_module init !! "BASE_MODEL" = Some (VStr BASE_MODEL)
  ∧ import_module init !! "TEAMS" = Some (VTuple TEAMS).
Proof.
  intros Hinit. split.
  - unfold public_names in *. rewrite import_module_unfold, !dom_insert_L.
    apply set_eq. intros n. set_unfold.
    specialize (Hinit n). split.
    + intros [Hp [? | [? | [? | Hn]]]]; subst; auto. exfalso. auto.
    + intros [[? | ?] | ?]; subst; (split; [reflexivity | auto]).
  - auto using import_module_MODEL, import_module_BASE_MODEL,
      import_module_TEAMS.
Qed.

Lemma public_interface_witness :
  public_names {[ "__name__" := VStr "tasks.libs.issue.model.constants" ]} = ∅
  ∧ public_names
      (import_module
         {[ "__name__" := VStr "tasks.libs.issue.model.constants" ]})
    = {[ "MODEL"; "BASE_MODEL"; "TEAMS" ]}.
Proof.
  split; [vm_compute; reflexivity|].
  apply (public_interface
           {[ "__name__" := VStr "tasks.libs.issue.model.constants" ]}).
  vm_compute; reflexivity.
Defined.

(** ** Further properties of the module body *)

(** Running the body overlays the table of the three constants on the
    namespace it starts from. *)
Lemma import_module_overlay (init : namespace) :
  import_module init = constants ∪ init.
Proof.
  unfold constants. rewrite !import_module_unfold.
  rewrite <- !insert_union_l. by rewrite (left_id ∅ (∪)).
Qed.

(** A statement list leaves alone every name it does not assign. *)
Lemma exec_frame (body : list stmt) (ns : namespace) (name : string) :
  assignments_to name body = 0 → exec ns body !! name = ns !! name.
Proof.
  unfold assignments_to. revert ns.
  induction body as [|[x v] body IH]; intros ns Hcount; [done|].
  rewrite filter_cons in Hcount. simpl in *.
  case_decide as Hx; [discriminate|].
  rewrite IH by done. by rewrite lookup_insert_ne.
Qed.

(** Statements with pairwise distinct targets can run in any order. *)
Lemma exec_permutation (body body' : list stmt) :
  body ≡ₚ body' → NoDup (target_of <$> body) →
  ∀ ns : namespace, exec ns body = exec ns body'.
Proof.
  induction 1 as [|s l l' Hperm IH|[x v] [y w] l|l1 l2 l3 H12 IH12 H23 IH23];
    intros Hnd ns.
  - done.
  - simpl. apply IH. by inversion Hnd.
  - simpl. f_equal. apply insert_insert_ne.
    simpl in Hnd. inversion Hnd as [|? ? Hnotin _]; subst.
    intros ->. apply Hnotin. left.
  - rewrite IH12 by done. apply IH23. by rewrite <- H12.
Qed.

Lemma tuple_getitem_nonneg (t : list string) (i : Z) :
  (0 ≤ i)%Z → tuple_getitem t i = t !! Z.to_nat i.
Proof.
  intros Hi. unfold tuple_getitem. cbv zeta.
  assert ((i <? 0)%Z = false) as Hnn by lia.
  rewrite Hnn. cbn [orb]. rewrite Hnn. cbn [orb].
  destruct (Z.leb_spec (Z.of_nat (length t)) i) as [Hge|Hlt]; [|done].
  symmetry. apply lookup_ge_None. lia.
Qed.

Lemma tuple_getitem_negative (t : list string) (i : Z) :
  (i < 0)%Z →
  tuple_getitem t i
  = if (i + Z.of_nat (length t) <? 0)%Z then None
    else t !! Z.to_nat (i + Z.of_nat (length t)).
Proof.
  intros Hi. unfold tuple_getitem. cbv zeta.
  assert ((i <? 0)%Z = true) as -> by lia. cbn iota.
  destruct (Z.ltb_spec (i + Z.of_nat (length t)) 0) as [Hlow|Hok]; [done|].
  assert ((Z.of_nat (length t) <=? i + Z.of_nat (length t))%Z = false) as ->
    by lia.
  done.
Qed.

Lemma tuple_getitem_is_Some (t : list string) (i : Z) :
  is_Some (tuple_getitem t i)
  ↔ (- Z.of_nat (length t) ≤ i < Z.of_nat (length t))%Z.
Proof.
  destruct (Z.lt_ge_cases i 0) as [Hneg|Hpos].
  - rewrite tuple_getitem_negative by done.
    destruct (Z.ltb_spec (i + Z.of_nat (length t)) 0) as [Hlow|Hok].
    + split; [by intros [? ?]|lia].
    + rewrite lookup_lt_is_Some. lia.
  - rewrite tuple_getitem_nonneg by done.
    rewrite lookup_lt_is_Some. lia.
Qed.

(** X1: executing the module leaves every name other than __builtins__
    that its body does not assign bound as it was (or unbound as it was);
    __builtins__ keeps the binding it had, and is bound by the interpreter
    where it had none. *)
Theorem exec_module_frame (init : namespace) (name : string) :
  name ≠ "__builtins__" →
  assignments_to name module_body = 0 →
  exec_module init !! name = init !! name
  ∧ exec_module init !! "__builtins__"
    = Some (default VBuiltins (init !! "__builtins__")).
Proof.
  intros Hname Hcount. unfold exec_module, import_module.
  rewrite !exec_frame by done. unfold setup_builtins.
  destruct (init !! "__builtins__") as [b|] eqn:Hb; simpl.
  - by rewrite Hb.
  - rewrite lookup_insert_ne by done. by rewrite lookup_insert_eq.
Qed.

Lemma exec_module_frame_witness :
  "__name__" ≠ "__builtins__"
  ∧ assignments_to "__name__" module_body = 0
  ∧ exec_module
      {[ "__name__" := VStr "tasks.libs.issue.model.constants" ]}
    !! "__name__"
    = Some (VStr "tasks.libs.issue.model.constants")
  ∧ exec_module
      {[ "__name__" := VStr "tasks.libs.issue.model.constants" ]}
    !! "__builtins__"
    = Some VBuiltins.
Proof.
  split; [discriminate|]. split; [reflexivity|].
  destruct (exec_module_frame
              {[ "__name__" := VStr "tasks.libs.issue.model.constants" ]}
              "__name__") as [Hn Hb]; [discriminate | reflexivity |].
  split.
  - etrans; [exact Hn|]. apply lookup_singleton_eq.
  - etrans; [exact Hb|]. reflexivity.
Defined.

(** X2: running the module body a second time, in the namespace the first
    run produced, changes nothing: a reload is idempotent. *)
Theorem import_module_idempotent (init : namespace) :
  import_module (import_module init) = import_module init.
Proof.
  rewrite (import_module_overlay (import_module init)).
  rewrite (import_module_overlay init).
  rewrite (assoc_L (∪)). by rewrite (idemp_L (∪)).
Qed.

(** X3: the three assignments are independent: run in any order, from any
    namespace, they build the namespace the source order builds. *)
Theorem module_body_order_irrelevant
    (init : namespace) (body' : list stmt) :
  body' ≡ₚ module_body → exec init body' = import_module init.
Proof.
  intros Hperm. unfold import_module. symmetry.
  apply exec_permutation; [done|].
  apply (bool_decide_unpack _). vm_compute. reflexivity.
Qed.

Lemma module_body_order_irrelevant_witness :
  reverse module_body ≡ₚ module_body
  ∧ exec ∅ [ Assign "TEAMS" (VTuple TEAMS);
             Assign "BASE_MODEL" (VStr BASE_MODEL);
             Assign "MODEL" (VStr MODEL) ]
    = import_module ∅.
Proof.
  split; [apply reverse_Permutation|].
  apply (module_body_order_irrelevant ∅ (reverse module_body)).
  apply reverse_Permutation.
Defined.

(** X4: the public names after an import are the public names that were
    there before together with MODEL, BASE_MODEL and TEAMS. *)
Theorem import_module_public_names (init : namespace) :
  public_names (import_module init)
  = {[ "MODEL"; "BASE_MODEL"; "TEAMS" ]} ∪ public_names init.
Proof.
  unfold public_names. rewrite import_module_unfold, !dom_insert_L.
  apply set_eq. intros n. set_unfold. split.
  - intros [Hp [? | [? | [? | Hn]]]]; subst; auto.
  - intros [[[? | ?] | ?] | [Hp Hn]]; subst; (split; [done | auto]).
Qed.

(** ** Further properties of the team-label tuple *)

(** X5: TEAMS[i] succeeds exactly for the indices from -41 to 40; every other
    index raises IndexError. *)
Theorem TEAMS_valid_indices (i : Z) :
  is_Some (tuple_getitem TEAMS i) ↔ (-41 ≤ i < 41)%Z.
Proof. rewrite tuple_getitem_is_Some. simpl. lia. Qed.

(** X6: labels and non-negative indices correspond one to one: a string is a
    team label exactly when some index from 0 to 40 reads it, and then no
    other index from 0 to 40 does. *)
Theorem TEAMS_label_index (s : string) :
  s ∈ TEAMS
  ↔ ∃ i : Z, (0 ≤ i < 41)%Z ∧ tuple_getitem TEAMS i = Some s
      ∧ ∀ j : Z, (0 ≤ j < 41)%Z ∧ tuple_getitem TEAMS j = Some s → j = i.
Proof.
  split.
  - intros [n Hn]%list_elem_of_lookup.
    pose proof (lookup_lt_Some _ _ _ Hn) as Hlt.
    change (length TEAMS) with 41 in Hlt.
    exists (Z.of_nat n). split; [lia|]. split.
    + rewrite tuple_getitem_nonneg by lia. by rewrite Nat2Z.id.
    + intros j [Hj Hs]. rewrite tuple_getitem_nonneg in Hs by lia.
      pose proof (NoDup_lookup TEAMS _ _ _ TEAMS_NoDup Hs Hn). lia.
  - intros (i & Hi & Hs & _). rewrite tuple_getitem_nonneg in Hs by lia.
    apply list_elem_of_lookup. eauto.
Qed.

(** ** Further properties of the model-reference strings *)

(** X7: neither model-reference string contains whitespace; MODEL is an
    absolute path, starting with a slash and not ending with one; BASE_MODEL
    is written in lowercase letters, digits and hyphens; and neither string
    is one of the team labels. *)
Theorem model_strings_format :
  string_forallb (λ c, negb (is_py_space c)) MODEL = true
  ∧ string_forallb (λ c, negb (is_py_space c)) BASE_MODEL = true
  ∧ first_char MODEL = Some "/"%char
  ∧ char_is (Ascii.eqb "/") (last_char MODEL) = false
  ∧ string_forallb is_label_char BASE_MODEL = true
  ∧ (MODEL ∉ TEAMS) ∧ (BASE_MODEL ∉ TEAMS).
Proof.
  repeat split; try (vm_compute; reflexivity);
    apply (bool_decide_unpack _); vm_compute; reflexivity.
Qed.
